(** * GovernanceAgent (realms/index.ts): instruction routing and response envelopes

    A shallow embedding of the [GovernanceAgent] class of the Realms example
    and the properties of its [processInstruction] entry point.

    Modelling conventions.
    - An ECMAScript string is a sequence of code units.  Instruction texts are
      Rocq [string]s, one [ascii] per code unit, which covers the code units
      U+0000 to U+00FF; on that range [toLowerCase] and [trim] below are the
      ECMAScript functions.
    - An [async] method is a computation over a [World]: the host clock, and
      two ghost counters used only to state how often the signer is called
      and that nothing is submitted.  A rejected promise is the outcome
      [Thrown].
    - A timestamp field holds [toISOString t], the ISO-8601 rendering of the
      time value [t] (milliseconds since the epoch).  [Date.now()] of a running
      host is a valid time value and remains one three days later, so the
      rendering is total. *)

From Stdlib Require Import String Ascii List ZArith Lia Bool Arith.
Import ListNotations.
Open Scope string_scope.

(* ================================================================== *)
(** ** The string methods used by the agent *)

Module JsString.

(** Code unit of a character. *)
Definition codeUnit (c : ascii) : nat := nat_of_ascii c.

(** [String.prototype.toLowerCase] on one code unit of the range covered:
    A-Z, and the Latin-1 capitals U+00C0..U+00DE except the multiplication
    sign U+00D7, move up by 32; every other code unit is unchanged. *)
Definition toLowerChar (c : ascii) : ascii :=
  let n := codeUnit c in
  if (((65 <=? n) && (n <=? 90))
      || ((192 <=? n) && (n <=? 222) && negb (n =? 215)))%nat
  then ascii_of_nat (n + 32)
  else c.

Fixpoint toLowerCase (s : string) : string :=
  match s with
  | EmptyString => EmptyString
  | String c s' => String (toLowerChar c) (toLowerCase s')
  end.

(** White space and line terminators stripped by [trim]: TAB, LF, VT, FF,
    CR, SPACE and NO-BREAK SPACE. *)
Definition isWhiteSpace (c : ascii) : bool :=
  let n := codeUnit c in
  (((9 <=? n) && (n <=? 13)) || (n =? 32) || (n =? 160))%nat.

Fixpoint trimStart (s : string) : string :=
  match s with
  | EmptyString => EmptyString
  | String c s' => if isWhiteSpace c then trimStart s' else s
  end.

Fixpoint trimEnd (s : string) : string :=
  match s with
  | EmptyString => EmptyString
  | String c s' =>
      match trimEnd s' with
      | EmptyString => if isWhiteSpace c then EmptyString else String c EmptyString
      | t => String c t
      end
  end.

(** [String.prototype.trim]. *)
Definition trim (s : string) : string := trimEnd (trimStart s).

Fixpoint drop (n : nat) (s : string) : string :=
  match n, s with
  | O, _ => s
  | S _, EmptyString => EmptyString
  | S n', String _ s' => drop n' s'
  end.

(** [s.includes(sub)]: [sub] occurs in [s] as a contiguous run. *)
Fixpoint includes (s sub : string) : bool :=
  prefix sub s
  || match s with
     | EmptyString => false
     | String _ s' => includes s' sub
     end.

(** The text before and the text after the leftmost occurrence of [sep] in
    [s], if there is one: the search step of [split]. *)
Fixpoint splitOnce (s sep : string) : option (string * string) :=
  if prefix sep s then Some (EmptyString, drop (String.length sep) s)
  else match s with
       | EmptyString => None
       | String c s' =>
           match splitOnce s' sep with
           | Some (before, after) => Some (String c before, after)
           | None => None
           end
       end.

(** The loop of [split] for a non-empty separator: cut at the leftmost
    occurrence, continue behind it.  [fuel] bounds the number of cuts. *)
Fixpoint splitLoop (fuel : nat) (s sep : string) : list string :=
  match fuel with
  | O => [s]
  | S fuel' =>
      match splitOnce s sep with
      | None => [s]
      | Some (before, after) => before :: splitLoop fuel' after sep
      end
  end.

Fixpoint chars (s : string) : list string :=
  match s with
  | EmptyString => []
  | String c s' => String c EmptyString :: chars s'
  end.

(** [s.split(sep)]: the pieces of [s] between the successive,
    non-overlapping occurrences of [sep]; the empty separator splits into
    code units.  Every cut consumes at least one code unit, so [String.length s]
    cuts are enough ([splitLoop_fuel]). *)
Definition split (s sep : string) : list string :=
  match sep with
  | EmptyString => chars s
  | _ => splitLoop (String.length s) s sep
  end.

(** [a[i]] on an array: [None] is [undefined]. *)
Definition item {A : Type} (a : list A) (i : nat) : option A := nth_error a i.

End JsString.

Import JsString.

(* ================================================================== *)
(** ** Asynchronous computations over the host *)

(** The host as the agent sees it.  [clock k] is what the [k]-th reading of
    the system clock returns and [clockReads] counts the readings made so far.
    [signerCalls] and [submissions] are ghost counters: the number of calls of
    [executeTransaction], and the number of transactions handed to the
    network. *)
Record World : Type := mkWorld {
  clock : nat -> Z;
  clockReads : nat;
  signerCalls : nat;
  submissions : nat
}.

Inductive Exn : Type :=
| TypeError.

Inductive Outcome (A : Type) : Type :=
| Returned (a : A)
| Thrown (e : Exn).

Arguments Returned {A} a.
Arguments Thrown {A} e.

(** The result of awaiting an [async] function from a given host state. *)
Definition Async (A : Type) : Type := World -> Outcome A * World.

Definition ret {A : Type} (a : A) : Async A := fun w => (Returned a, w).

Definition throw {A : Type} (e : Exn) : Async A := fun w => (Thrown e, w).

Definition bind {A B : Type} (m : Async A) (k : A -> Async B) : Async B :=
  fun w =>
    match m w with
    | (Returned a, w') => k a w'
    | (Thrown e, w') => (Thrown e, w')
    end.

Notation "x <- m ;; k" := (bind m (fun x => k))
  (at level 61, m at next level, right associativity).

(** [Date.now()], and the time value of [new Date()]: one clock reading. *)
Definition Date_now : Async Z :=
  fun w =>
    (Returned (clock w (clockReads w)),
     mkWorld (clock w) (S (clockReads w)) (signerCalls w) (submissions w)).

(** Ghost step: one more call of the signer has been made. *)
Definition signerCalled : Async unit :=
  fun w =>
    (Returned tt,
     mkWorld (clock w) (clockReads w) (S (signerCalls w)) (submissions w)).

(** The ISO-8601 text of a time value, kept symbolic. *)
Inductive IsoString : Type :=
| toISOString (timeValue : Z).

(** [x || d] on a possibly undefined string: [undefined] and the empty string
    are falsy. *)
Definition orElse (x : option string) (d : string) : string :=
  match x with
  | None => d
  | Some EmptyString => d
  | Some t => t
  end.

(** The double-quote character, as a one-character string. *)
Definition dquote : string := String (ascii_of_nat 34) EmptyString.

(* ================================================================== *)
(** ** Response envelope and payloads *)

Module AgentError.
Record t : Type := mk { code : Z; message : string }.
End AgentError.

Module ProposalResult.
Record t : Type := mk {
  type : string;
  title : string;
  createdAt : IsoString;
  proposalAddress : string;
  votingEndsAt : IsoString
}.
End ProposalResult.

Module VoteResult.
Record t : Type := mk {
  type : string;
  proposalId : string;
  vote : string;
  votingPower : string;
  timestamp : IsoString
}.
End VoteResult.

Module TokenHolding.
Record t : Type := mk { mint : string; symbol : string; amount : string }.
End TokenHolding.

Module TreasurySnapshot.
Record t : Type := mk {
  type : string;
  balance : string;
  tokens : list TokenHolding.t;
  governanceAddress : string;
  lastActivity : IsoString
}.
End TreasurySnapshot.

(** The [data] objects the three handlers build. *)
Inductive ActionPayload : Type :=
| Proposal (p : ProposalResult.t)
| Vote (v : VoteResult.t)
| Treasury (t : TreasurySnapshot.t).

(** [data.type]. *)
Definition payloadType (d : ActionPayload) : string :=
  match d with
  | Proposal p => ProposalResult.type p
  | Vote v => VoteResult.type v
  | Treasury t => TreasurySnapshot.type t
  end.

(** [AgentResponse]: [data], [error] and [transactionId] are optional. *)
Module AgentResponse.
Record t : Type := mk {
  success : bool;
  message : string;
  data : option ActionPayload;
  error : option AgentError.t;
  transactionId : option string
}.
End AgentResponse.

(* ================================================================== *)
(** ** The agent *)

Module GovernanceAgent.

Record t : Type := mk {
  daoName : string;
  realmAddress : string;
  agentId : string
}.

Definition getName (self : t) : string :=
  daoName self ++ " Governance Agent".

Definition getDescription (self : t) : string :=
  "Agent for interacting with " ++ daoName self
    ++ " DAO via Realms governance".

Definition getCapabilities (self : t) : list string :=
  [ "Proposal Creation";
    "Vote Casting";
    "DAO Treasury Management";
    "Governance Analytics";
    "Member Management" ].

Definition executeTransaction {A : Type} (self : t) (transaction : A)
  : Async string :=
  _ <- signerCalled ;;
  ret "simulated-transaction-signature".

Definition getState (self : t) : Async (list (string * string)) :=
  ret [ ("daoName", daoName self);
        ("realmAddress", realmAddress self);
        ("agentId", agentId self) ].

Definition createProposal (self : t) (instruction : string)
  : Async AgentResponse.t :=
  title <-
    (if includes instruction "titled"
     then match item (split instruction "titled") 1 with
          | None => throw TypeError
          | Some rest =>
              ret (orElse (item (split (trim rest) dquote) 1)
                          "Untitled Proposal")
          end
     else ret "Untitled Proposal") ;;
  created <- Date_now ;;
  now <- Date_now ;;
  ret (AgentResponse.mk
         true
         ("Created new governance proposal: " ++ dquote ++ title ++ dquote)
         (Some (Proposal (ProposalResult.mk
            "proposal"
            title
            (toISOString created)
            "Gx7dJvn9PD9G6uUPsVQCjrCgPy9ogHZ7GzZm5HVF37EL"
            (toISOString (now + 3 * 24 * 60 * 60 * 1000)))))
         None
         None).

Definition castVote (self : t) (instruction : string)
  : Async AgentResponse.t :=
  let proposalId := "Gx7dJvn9PD9G6uUPsVQCjrCgPy9ogHZ7GzZm5HVF37EL" in
  let voteFor := negb (includes (toLowerCase instruction) "against") in
  stamp <- Date_now ;;
  ret (AgentResponse.mk
         true
         ("Vote cast " ++ (if voteFor then "for" else "against") ++ " proposal")
         (Some (Vote (VoteResult.mk
            "vote"
            proposalId
            (if voteFor then "for" else "against")
            "1000"
            (toISOString stamp))))
         None
         None).

Definition treasuryAction (self : t) (instruction : string)
  : Async AgentResponse.t :=
  last <- Date_now ;;
  ret (AgentResponse.mk
         true
         "Treasury information retrieved"
         (Some (Treasury (TreasurySnapshot.mk
            "treasury"
            "15000 SOL"
            [ TokenHolding.mk "EPjFWdd5AufqSSqeM2qN1xzybapC8G4wEGGkZwyTDt1v"
                              "USDC" "25000";
              TokenHolding.mk "mSoLzYCxHdYgdzU16g5QSh3i5K3z3KZK7ytfqcJm7So"
                              "mSOL" "150" ]
            "G5trKGedmTdqpn6wqfX3KdPnBXriazkWuSEBrUEFQ1qJ"
            (toISOString last))))
         None
         None).

Definition unsupported : AgentResponse.t :=
  AgentResponse.mk
    false
    "Unsupported governance instruction"
    None
    (Some (AgentError.mk 400 "Could not parse governance instruction"))
    None.

Definition processInstruction (self : t) (instruction : string)
  : Async AgentResponse.t :=
  if includes (toLowerCase instruction) "create proposal" then
    createProposal self instruction
  else if includes (toLowerCase instruction) "vote"
          || includes (toLowerCase instruction) "cast" then
    castVote self instruction
  else if includes (toLowerCase instruction) "treasury" then
    treasuryAction self instruction
  else
    ret unsupported.

End GovernanceAgent.


(* ================================================================== *)
(** ** Classification, seen apart from the handlers *)

(** The three private handler methods. *)
Inductive Handler : Type :=
| CreateProposal
| CastVote
| TreasuryAction.

(** The branch the conditional chain of [processInstruction] takes; [None] is
    its final [else]. *)
Definition classify (instruction : string) : option Handler :=
  if includes (toLowerCase instruction) "create proposal" then
    Some CreateProposal
  else if includes (toLowerCase instruction) "vote"
          || includes (toLowerCase instruction) "cast" then
    Some CastVote
  else if includes (toLowerCase instruction) "treasury" then
    Some TreasuryAction
  else
    None.

Definition runHandler (self : GovernanceAgent.t) (h : Handler)
  : string -> Async AgentResponse.t :=
  match h with
  | CreateProposal => GovernanceAgent.createProposal self
  | CastVote => GovernanceAgent.castVote self
  | TreasuryAction => GovernanceAgent.treasuryAction self
  end.

(** The handler an envelope comes from, read off the shape of its payload. *)
Definition producedBy (r : AgentResponse.t) : option Handler :=
  match AgentResponse.data r with
  | Some (Proposal _) => Some CreateProposal
  | Some (Vote _) => Some CastVote
  | Some (Treasury _) => Some TreasuryAction
  | None => None
  end.

(** The keywords the chain tests. *)
Definition keywords : list string :=
  [ "create proposal"; "vote"; "cast"; "treasury" ].

(** The classifier in the words of the specification: an ordered table of
    rules, each an or-group of keywords with its handler; the first rule one
    of whose keywords occurs in the lower-cased text wins. *)
Definition governanceRules : list (list string * Handler) :=
  [ (["create proposal"], CreateProposal);
    (["vote"; "cast"], CastVote);
    (["treasury"], TreasuryAction) ].

Fixpoint firstMatch (rules : list (list string * Handler)) (text : string)
  : option Handler :=
  match rules with
  | [] => None
  | (group, h) :: rest =>
      if existsb (includes text) group then Some h else firstMatch rest text
  end.

(** Handlers with a ledger effect, after the specification: proposing and
    voting mutate the ledger, the treasury snapshot is a query. *)
Definition mutatesLedger (h : Handler) : bool :=
  match h with
  | CreateProposal | CastVote => true
  | TreasuryAction => false
  end.

(** The advertised capability each handler implements, matched by name. *)
Definition capabilityOf (h : Handler) : string :=
  match h with
  | CreateProposal => "Proposal Creation"
  | CastVote => "Vote Casting"
  | TreasuryAction => "DAO Treasury Management"
  end.

(** [c] occurs in [s]. *)
Definition hasChar (c : ascii) (s : string) : Prop :=
  In c (list_ascii_of_string s).

(** The agent and a host used in the concrete runs below: the agent of the
    example driver, and a host whose clock advances by one millisecond per
    reading. *)
Definition demoAgent : GovernanceAgent.t :=
  GovernanceAgent.mk "MCP Community"
                     "G5trKGedmTdqpn6wqfX3KdPnBXriazkWuSEBrUEFQ1qJ"
                     "11111111111111111111111111111111".

Definition demoWorld : World :=
  mkWorld (fun k => (Z.of_nat k + 1700000000000)%Z) 0 0 0.

(** The [type] tag each handler writes into its payload. *)
Definition typeTag (h : Handler) : string :=
  match h with
  | CreateProposal => "proposal"
  | CastVote => "vote"
  | TreasuryAction => "treasury"
  end.

(** The call returns an envelope carrying a non-empty transaction identifier,
    and the signer has been called exactly once during it. *)
Definition signedOnce (self : GovernanceAgent.t) (s : string) (w : World)
  : Prop :=
  exists env w' tx,
    GovernanceAgent.processInstruction self s w = (Returned env, w')
    /\ AgentResponse.transactionId env = Some tx
    /\ tx <> EmptyString
    /\ signerCalls w' = S (signerCalls w).

(** The instruction of the round-trip scenario, and the one the example
    driver submits. *)
Definition fundGrants : string :=
  "Create a new proposal titled " ++ dquote ++ "Fund Grants" ++ dquote.

Definition driverInstruction : string :=
  "Create a new proposal titled " ++ dquote
    ++ "Increase Treasury Allocation for Developer Grants" ++ dquote
    ++ " to allocate 1000 USDC for developer grants".

(** A text of white space only. *)
Fixpoint blank (s : string) : bool :=
  match s with
  | EmptyString => true
  | String c s' => isWhiteSpace c && blank s'
  end.

(** [t] occurs in [s] as a contiguous run. *)
Definition partOf (t s : string) : Prop :=
  exists pre post, s = pre ++ t ++ post.

(** The time value behind a timestamp. *)
Definition timeValueOf (i : IsoString) : Z :=
  match i with
  | toISOString t => t
  end.

(** The timestamp a payload carries for the moment it was made:
    [createdAt], [timestamp], [lastActivity]. *)
Definition issuedAt (d : ActionPayload) : IsoString :=
  match d with
  | Proposal p => ProposalResult.createdAt p
  | Vote v => VoteResult.timestamp v
  | Treasury t => TreasurySnapshot.lastActivity t
  end.

(** A clock that never runs backwards. *)
Definition monotoneClock (w : World) : Prop :=
  forall i j, i <= j -> (clock w i <= clock w j)%Z.

(* ================================================================== *)
(** ** Facts about the string methods *)

Section StringFacts.

Lemma prefix_drop (p s : string) :
  prefix p s = true -> s = p ++ drop (String.length p) s.
Proof.
  revert s; induction p as [|a p IH]; intros s H.
  - reflexivity.
  - destruct s as [|b s]; simpl in H; [discriminate|].
    destruct (ascii_dec a b) as [->|]; [|discriminate].
    simpl. f_equal. now apply IH.
Qed.

Lemma prefix_empty (sep : string) :
  sep <> EmptyString -> prefix sep EmptyString = false.
Proof. destruct sep; simpl; congruence. Qed.

Lemma prefix_length (p s : string) :
  prefix p s = true -> String.length p <= String.length s.
Proof.
  revert s; induction p as [|a p IH]; intros s H; simpl.
  - lia.
  - destruct s as [|b s]; simpl in H; [discriminate|].
    destruct (ascii_dec a b); [|discriminate].
    simpl. apply IH in H. lia.
Qed.

Lemma drop_length (n : nat) (s : string) :
  String.length (drop n s) = String.length s - n.
Proof.
  revert s; induction n as [|n IH]; intros s; simpl.
  - lia.
  - destruct s; simpl; auto.
Qed.

(** [splitOnce] cuts [s] at an occurrence of [sep]. *)
Lemma splitOnce_app (s sep before after : string) :
  splitOnce s sep = Some (before, after) -> s = before ++ sep ++ after.
Proof.
  revert before; induction s as [|c s IH]; intros before H;
    cbn [splitOnce] in H.
  - destruct (prefix sep EmptyString) eqn:P; [|discriminate].
    injection H as <- <-. now apply prefix_drop.
  - destruct (prefix sep (String c s)) eqn:P.
    + injection H as <- <-. now apply prefix_drop.
    + destruct (splitOnce s sep) as [[b a]|]; [|discriminate].
      injection H as <- <-. simpl. f_equal. now apply IH.
Qed.

(** It finds an occurrence exactly when [includes] reports one. *)
Lemma splitOnce_includes (s sep : string) :
  includes s sep = true -> exists before after,
    splitOnce s sep = Some (before, after).
Proof.
  induction s as [|c s IH]; cbn [includes splitOnce]; intros H.
  - rewrite orb_false_r in H. rewrite H. eauto.
  - destruct (prefix sep (String c s)); [eauto|].
    simpl in H. destruct (IH H) as (b & a & ->). eauto.
Qed.

Lemma splitOnce_none (s sep : string) :
  includes s sep = false -> splitOnce s sep = None.
Proof.
  induction s as [|c s IH]; cbn [includes splitOnce]; intros H;
    apply orb_false_elim in H as [-> H]; [reflexivity|].
  now rewrite (IH H).
Qed.

(** Behind a non-empty separator less text is left. *)
Lemma splitOnce_shorter (s sep before after : string) :
  sep <> EmptyString ->
  splitOnce s sep = Some (before, after) ->
  String.length after < String.length s.
Proof.
  intros Hsep; revert before; induction s as [|c s IH]; intros before H;
    cbn [splitOnce] in H.
  - now rewrite prefix_empty in H.
  - destruct (prefix sep (String c s)) eqn:P.
    + injection H as <- <-. apply prefix_length in P.
      rewrite drop_length. destruct sep; [congruence|]. simpl in *. lia.
    + destruct (splitOnce s sep) as [[b a]|]; [|discriminate].
      injection H as <- <-. specialize (IH _ eq_refl). simpl. lia.
Qed.

(** Fuel beyond the length of the text changes nothing: [split] is the
    loop run to its end. *)
Lemma splitLoop_fuel (sep : string) :
  sep <> EmptyString ->
  forall n m s,
    String.length s <= n -> String.length s <= m ->
    splitLoop n s sep = splitLoop m s sep.
Proof.
  intros Hsep; induction n as [|n IH]; intros m s Hn Hm.
  - destruct s; [|simpl in Hn; lia].
    destruct m; cbn [splitLoop splitOnce]; [reflexivity|].
    now rewrite prefix_empty.
  - destruct m as [|m].
    + destruct s; [|simpl in Hm; lia]. cbn [splitLoop splitOnce].
      now rewrite prefix_empty.
    + cbn [splitLoop]. destruct (splitOnce s sep) as [[b a]|] eqn:E; [|reflexivity].
      f_equal. pose proof (splitOnce_shorter _ _ _ _ Hsep E).
      apply IH; lia.
Qed.

(** The unfolding of [split] at an occurrence of the separator. *)
Lemma split_cons (s sep before after : string) :
  sep <> EmptyString ->
  splitOnce s sep = Some (before, after) ->
  split s sep = before :: split after sep.
Proof.
  intros Hsep E. unfold split. destruct sep as [|c sep]; [congruence|].
  pose proof (splitOnce_shorter _ _ _ _ Hsep E) as L.
  destruct (String.length s) as [|n] eqn:Ls; [lia|].
  simpl splitLoop at 1. rewrite E. f_equal.
  apply splitLoop_fuel; auto; lia.
Qed.

Lemma split_single (s sep : string) :
  sep <> EmptyString ->
  splitOnce s sep = None ->
  split s sep = [s].
Proof.
  intros Hsep E. unfold split. destruct sep as [|c sep]; [congruence|].
  destruct (String.length s); cbn [splitLoop]; [reflexivity|]. now rewrite E.
Qed.

(** The first piece of a split is the start of the text. *)
Lemma split_head (s sep : string) :
  sep <> EmptyString ->
  exists piece pieces tail,
    split s sep = piece :: pieces /\ s = piece ++ tail.
Proof.
  intros Hsep. destruct (splitOnce s sep) as [[b a]|] eqn:E.
  - exists b, (split a sep), (sep ++ a). split.
    + now apply split_cons.
    + now apply splitOnce_app.
  - exists s, [], EmptyString. split.
    + now apply split_single.
    + clear. induction s; simpl; congruence.
Qed.

Lemma hasChar_app (c : ascii) (s t : string) :
  hasChar c (s ++ t) <-> hasChar c s \/ hasChar c t.
Proof.
  unfold hasChar. induction s as [|a s IH]; simpl.
  - tauto.
  - rewrite IH. tauto.
Qed.

Lemma hasChar_trimStart (c : ascii) (s : string) :
  hasChar c (trimStart s) -> hasChar c s.
Proof.
  unfold hasChar. induction s as [|a s IH]; simpl; auto.
  destruct (isWhiteSpace a); simpl; auto.
Qed.

Lemma hasChar_trimEnd (c : ascii) (s : string) :
  hasChar c (trimEnd s) -> hasChar c s.
Proof.
  unfold hasChar. induction s as [|a s IH]; simpl; auto.
  destruct (trimEnd s) as [|b t].
  - destruct (isWhiteSpace a); simpl; tauto.
  - simpl in *. tauto.
Qed.

Lemma hasChar_trim (c : ascii) (s : string) :
  hasChar c (trim s) -> hasChar c s.
Proof.
  intros H. now apply hasChar_trimStart, hasChar_trimEnd.
Qed.

Lemma prefix_hasChar (c : ascii) (s : string) :
  prefix (String c EmptyString) s = true -> hasChar c s.
Proof.
  destruct s as [|b s]; simpl; [discriminate|].
  destruct (ascii_dec c b) as [->|]; [|discriminate].
  intros _. now left.
Qed.

(** A text without the character has no occurrence of it to cut at. *)
Lemma includes_hasChar (c : ascii) (s : string) :
  ~ hasChar c s -> includes s (String c EmptyString) = false.
Proof.
  induction s as [|b s IH]; intros H.
  - reflexivity.
  - cbn [includes]. apply orb_false_intro.
    + destruct (prefix (String c EmptyString) (String b s)) eqn:P; auto.
      now apply prefix_hasChar in P.
    + apply IH. intros Hc. apply H. now right.
Qed.

End StringFacts.

(* ================================================================== *)
(** ** The handlers *)

Section Handlers.

Variable self : GovernanceAgent.t.

Lemma titled_nonempty : "titled" <> EmptyString.
Proof. discriminate. Qed.

Lemma dquote_nonempty : dquote <> EmptyString.
Proof. discriminate. Qed.

(** When the marker occurs, [split('titled')[1]] is defined: it is the start
    of the text behind the first occurrence of the marker. *)
Lemma titled_rest (s : string) :
  includes s "titled" = true ->
  exists rest before after tail,
    item (split s "titled") 1 = Some rest
    /\ s = before ++ "titled" ++ after
    /\ after = rest ++ tail.
Proof.
  intros H. destruct (splitOnce_includes _ _ H) as (b & a & E).
  destruct (split_head a "titled" titled_nonempty) as (p & ps & tl & Sa & Ea).
  exists p, b, a, tl. repeat split; auto.
  - rewrite (split_cons _ _ _ _ titled_nonempty E), Sa. reflexivity.
  - now apply splitOnce_app.
Qed.

(** [createProposal] returns: it reads the clock twice and touches nothing
    else. *)
Lemma createProposal_returns (s : string) (w : World) :
  exists title,
    GovernanceAgent.createProposal self s w =
    (Returned
       (AgentResponse.mk
          true
          ("Created new governance proposal: " ++ dquote ++ title ++ dquote)
          (Some (Proposal (ProposalResult.mk
             "proposal"
             title
             (toISOString (clock w (clockReads w)))
             "Gx7dJvn9PD9G6uUPsVQCjrCgPy9ogHZ7GzZm5HVF37EL"
             (toISOString
                (clock w (S (clockReads w)) + 3 * 24 * 60 * 60 * 1000)))))
          None
          None),
     mkWorld (clock w) (S (S (clockReads w))) (signerCalls w) (submissions w))
    /\ (includes s "titled" = false -> title = "Untitled Proposal")
    /\ (forall rest,
          item (split s "titled") 1 = Some rest ->
          includes s "titled" = true ->
          title = orElse (item (split (trim rest) dquote) 1)
                         "Untitled Proposal").
Proof.
  unfold GovernanceAgent.createProposal.
  destruct (includes s "titled") eqn:T.
  - destruct (titled_rest s T) as (rest & _ & _ & _ & -> & _).
    eexists; split; [reflexivity|]. split; [discriminate|].
    intros r [= <-] _. reflexivity.
  - eexists; split; [reflexivity|]. split; [reflexivity|].
    intros; discriminate.
Qed.

Lemma castVote_returns (s : string) (w : World) :
  GovernanceAgent.castVote self s w =
  (Returned
     (AgentResponse.mk
        true
        ("Vote cast "
           ++ (if negb (includes (toLowerCase s) "against")
               then "for" else "against")
           ++ " proposal")
        (Some (Vote (VoteResult.mk
           "vote"
           "Gx7dJvn9PD9G6uUPsVQCjrCgPy9ogHZ7GzZm5HVF37EL"
           (if negb (includes (toLowerCase s) "against")
            then "for" else "against")
           "1000"
           (toISOString (clock w (clockReads w))))))
        None
        None),
   mkWorld (clock w) (S (clockReads w)) (signerCalls w) (submissions w)).
Proof. reflexivity. Qed.

(** The conditional chain is dispatch on [classify]. *)
Lemma processInstruction_dispatch (s : string) :
  GovernanceAgent.processInstruction self s =
  match classify s with
  | Some h => runHandler self h s
  | None => ret GovernanceAgent.unsupported
  end.
Proof.
  unfold GovernanceAgent.processInstruction, classify.
  destruct (includes (toLowerCase s) "create proposal"); [reflexivity|].
  destruct (includes (toLowerCase s) "vote" || includes (toLowerCase s) "cast");
    [reflexivity|].
  destruct (includes (toLowerCase s) "treasury"); reflexivity.
Qed.

(** Every handler returns a successful envelope of its own payload shape,
    without a transaction identifier and without calling the signer. *)
Lemma runHandler_returns (h : Handler) (s : string) (w : World) :
  exists env w',
    runHandler self h s w = (Returned env, w')
    /\ producedBy env = Some h
    /\ AgentResponse.success env = true
    /\ AgentResponse.error env = None
    /\ AgentResponse.transactionId env = None
    /\ signerCalls w' = signerCalls w
    /\ submissions w' = submissions w
    /\ option_map payloadType (AgentResponse.data env) = Some (typeTag h).
Proof.
  destruct h; cbn [runHandler].
  - destruct (createProposal_returns s w) as (title & -> & _).
    do 2 eexists; split; [reflexivity|]. cbn. tauto.
  - rewrite castVote_returns.
    do 2 eexists; split; [reflexivity|]. cbn. tauto.
  - do 2 eexists; split; [reflexivity|]. cbn. tauto.
Qed.

(** [processInstruction] always returns, and what it returns comes from the
    branch [classify] names. *)
Lemma processInstruction_returns (s : string) (w : World) :
  exists env w',
    GovernanceAgent.processInstruction self s w = (Returned env, w')
    /\ producedBy env = classify s
    /\ (AgentResponse.success env = true <-> classify s <> None)
    /\ (AgentResponse.error env = None <-> classify s <> None)
    /\ AgentResponse.transactionId env = None
    /\ signerCalls w' = signerCalls w
    /\ submissions w' = submissions w.
Proof.
  rewrite processInstruction_dispatch.
  destruct (classify s) as [h|].
  - destruct (runHandler_returns h s w)
      as (env & w' & -> & P & S & E & T & C & L & _).
    exists env, w'. rewrite P, S, E. repeat split; auto; congruence.
  - exists GovernanceAgent.unsupported, w. cbn.
    repeat split; auto; congruence.
Qed.

End Handlers.

(* ================================================================== *)
(** ** Concrete runs *)

Example toLowerCase_mixed :
  toLowerCase "Create PROPOSAL, Vote!" = "create proposal, vote!".
Proof. reflexivity. Qed.

Example split_titled :
  split "a titled b titled c" "titled" = ["a "; " b "; " c"].
Proof. reflexivity. Qed.

Example split_separator_last : split "xtitled" "titled" = ["x"; EmptyString].
Proof. reflexivity. Qed.

Example split_empty_text : split EmptyString "titled" = [EmptyString].
Proof. reflexivity. Qed.

Example trim_both_ends : trim "  a b   " = "a b".
Proof. reflexivity. Qed.

(** Handed the scenario text directly, the proposal handler does extract the
    quoted title. *)
Example createProposal_fundGrants :
  exists env w',
    GovernanceAgent.createProposal demoAgent fundGrants demoWorld
      = (Returned env, w')
    /\ exists p, AgentResponse.data env = Some (Proposal p)
                 /\ ProposalResult.title p = "Fund Grants".
Proof. do 2 eexists; split; [reflexivity|]. eexists; split; reflexivity. Qed.

(** With the keyword as the chain expects it, the title round-trips. *)
Example processInstruction_adjacent_keyword :
  exists env w',
    GovernanceAgent.processInstruction demoAgent
      ("Create proposal titled " ++ dquote ++ "Fund Grants" ++ dquote)
      demoWorld
      = (Returned env, w')
    /\ exists p, AgentResponse.data env = Some (Proposal p)
                 /\ ProposalResult.title p = "Fund Grants".
Proof. do 2 eexists; split; [reflexivity|]. eexists; split; reflexivity. Qed.

(** An empty quoted title is falsy and gives way to the default. *)
Example empty_quoted_title_defaults :
  exists env w',
    GovernanceAgent.processInstruction demoAgent
      ("create proposal titled " ++ dquote ++ dquote) demoWorld
      = (Returned env, w')
    /\ exists p, AgentResponse.data env = Some (Proposal p)
                 /\ ProposalResult.title p = "Untitled Proposal".
Proof. do 2 eexists; split; [reflexivity|]. eexists; split; reflexivity. Qed.

(** The marker is matched as written, the keywords in lower case: a capital
    marker is no marker. *)
Example capital_marker_ignored :
  exists env w',
    GovernanceAgent.processInstruction demoAgent
      ("CREATE PROPOSAL TITLED " ++ dquote ++ "Fund Grants" ++ dquote) demoWorld
      = (Returned env, w')
    /\ exists p, AgentResponse.data env = Some (Proposal p)
                 /\ ProposalResult.title p = "Untitled Proposal".
Proof. do 2 eexists; split; [reflexivity|]. eexists; split; reflexivity. Qed.

(** The instruction of the example driver, which goes on to print proposal
    details, is answered by the treasury handler: its title mentions the
    treasury and its wording has no adjacent "create proposal". *)
Example driverInstruction_routed_to_treasury :
  classify driverInstruction = Some TreasuryAction.
Proof. reflexivity. Qed.

(* ================================================================== *)
(** ** Signing *)

(** C1, as the claim states it, fails: "create proposal" is routed to the
    ledger-mutating proposal handler, and the call neither yields a
    transaction identifier nor calls the signer. *)
Lemma create_proposal_not_signed :
  classify "create proposal" = Some CreateProposal
  /\ mutatesLedger CreateProposal = true
  /\ ~ signedOnce demoAgent "create proposal" demoWorld.
Proof.
  split; [reflexivity|]. split; [reflexivity|].
  intros (env & w' & tx & R & T & _).
  destruct (processInstruction_returns demoAgent "create proposal" demoWorld)
    as (env0 & w0 & R0 & _ & _ & _ & T0 & _).
  rewrite R0 in R. injection R as <- <-. congruence.
Qed.

(** C1 (amended).  For every instruction routed to a handler, be it
    create-proposal, cast-vote or the treasury query, the call returns an
    envelope of that handler without a transaction identifier, and
    [executeTransaction] is not called during it. *)
Theorem handlers_never_sign
  (self : GovernanceAgent.t) (s : string) (h : Handler) (w : World) :
  classify s = Some h ->
  exists env w',
    GovernanceAgent.processInstruction self s w = (Returned env, w')
    /\ producedBy env = Some h
    /\ AgentResponse.transactionId env = None
    /\ signerCalls w' = signerCalls w.
Proof.
  intros C. rewrite processInstruction_dispatch, C.
  destruct (runHandler_returns self h s w)
    as (env & w' & R & P & _ & _ & T & N & _).
  exists env, w'. auto.
Qed.

Lemma handlers_never_sign_witness :
  classify "Vote for proposal 7" = Some CastVote
  /\ exists env w',
       GovernanceAgent.processInstruction demoAgent "Vote for proposal 7"
                                          demoWorld
         = (Returned env, w')
       /\ producedBy env = Some CastVote
       /\ AgentResponse.transactionId env = None
       /\ signerCalls w' = signerCalls demoWorld.
Proof.
  split; [reflexivity|].
  apply (handlers_never_sign demoAgent "Vote for proposal 7" CastVote demoWorld).
  reflexivity.
Defined.

(* ================================================================== *)
(** ** Unsupported instructions *)

(** C2, as the claim states it, fails on the wording of the error: "hello"
    contains no keyword, and the message returned is not
    "Could not parse instruction". *)
Lemma unsupported_message_differs :
  (forall k, In k keywords -> includes (toLowerCase "hello") k = false)
  /\ ~ (exists env w' e,
          GovernanceAgent.processInstruction demoAgent "hello" demoWorld
            = (Returned env, w')
          /\ AgentResponse.error env = Some e
          /\ AgentError.message e = "Could not parse instruction").
Proof.
  split.
  - intros k [<-|[<-|[<-|[<-|[]]]]]; reflexivity.
  - intros (env & w' & e & R & E & M).
    change (GovernanceAgent.processInstruction demoAgent "hello" demoWorld)
      with (Returned GovernanceAgent.unsupported, demoWorld) in R.
    injection R as <- <-.
    cbn in E. injection E as <-. discriminate.
Qed.

(** C2 (amended).  For every instruction whose lower-cased text contains none
    of the keywords, [processInstruction] returns, leaving the host as it was,
    the envelope with [success = false], no data, error code 400 and error
    message "Could not parse governance instruction". *)
Theorem unmatched_instruction_rejected
  (self : GovernanceAgent.t) (s : string) (w : World) :
  (forall k, In k keywords -> includes (toLowerCase s) k = false) ->
  GovernanceAgent.processInstruction self s w =
  (Returned
     (AgentResponse.mk
        false
        "Unsupported governance instruction"
        None
        (Some (AgentError.mk 400 "Could not parse governance instruction"))
        None),
   w).
Proof.
  intros K. unfold GovernanceAgent.processInstruction.
  rewrite (K "create proposal"), (K "vote"), (K "cast"), (K "treasury");
    cbn; auto 6.
Qed.

Lemma unmatched_instruction_rejected_witness :
  GovernanceAgent.processInstruction demoAgent "hello" demoWorld =
  (Returned
     (AgentResponse.mk
        false
        "Unsupported governance instruction"
        None
        (Some (AgentError.mk 400 "Could not parse governance instruction"))
        None),
   demoWorld).
Proof.
  apply (unmatched_instruction_rejected demoAgent "hello" demoWorld).
  intros k [<-|[<-|[<-|[<-|[]]]]]; reflexivity.
Defined.

(* ================================================================== *)
(** ** Title extraction *)

(** C3, evaluated at the scenario text.  The lower-cased text reads
    "create a new proposal ...", in which "create proposal" does not occur,
    and it contains no other keyword: the call is answered as unsupported and
    carries no payload, hence no title. *)
Theorem fundGrants_unsupported (self : GovernanceAgent.t) (w : World) :
  GovernanceAgent.processInstruction self fundGrants w
  = (Returned GovernanceAgent.unsupported, w)
  /\ AgentResponse.data GovernanceAgent.unsupported = None.
Proof. split; reflexivity. Qed.

(** The second half of C3 holds: an instruction routed to the proposal
    handler that does not contain "titled" gets the default title. *)
Lemma title_defaults_without_marker
  (self : GovernanceAgent.t) (s : string) (w : World) :
  classify s = Some CreateProposal ->
  includes s "titled" = false ->
  exists env w' p,
    GovernanceAgent.processInstruction self s w = (Returned env, w')
    /\ AgentResponse.data env = Some (Proposal p)
    /\ ProposalResult.title p = "Untitled Proposal".
Proof.
  intros C T. rewrite processInstruction_dispatch, C. cbn [runHandler].
  destruct (createProposal_returns self s w) as (title & -> & D & _).
  rewrite (D T). do 3 eexists; repeat split.
Qed.

(* ================================================================== *)
(** ** Envelope invariant *)

(** C4.  On every input string [processInstruction] produces an envelope, and
    in it [success] is true exactly when [error] is absent, and false exactly
    when [data] is absent. *)
Theorem envelope_mutual_exclusion
  (self : GovernanceAgent.t) (s : string) (w : World) :
  exists env w',
    GovernanceAgent.processInstruction self s w = (Returned env, w')
    /\ (AgentResponse.success env = true <-> AgentResponse.error env = None)
    /\ (AgentResponse.success env = false <-> AgentResponse.data env = None).
Proof.
  destruct (processInstruction_returns self s w)
    as (env & w' & R & P & S & E & _).
  exists env, w'. split; [exact R|]. split; [tauto|].
  assert (D : AgentResponse.data env = None <-> producedBy env = None).
  { unfold producedBy. destruct (AgentResponse.data env) as [[]|];
      split; congruence. }
  rewrite D, P.
  destruct (AgentResponse.success env); destruct (classify s);
    split; intros; try congruence.
  - exfalso. apply (proj1 S); congruence.
  - exfalso. assert (false = true) by (apply S; congruence). discriminate.
Qed.

(* ================================================================== *)
(** ** Capabilities and routing *)

(** C5, as the claim states it, fails: five capabilities are advertised and
    the chain has three handlers, so however one capability is assigned to
    each handler, some advertised capability has no instruction routed to a
    handler for it. *)
Lemma capabilities_outnumber_handlers :
  ~ (exists handles : Handler -> string,
       forall c, In c (GovernanceAgent.getCapabilities demoAgent) ->
         exists s h w env w',
           GovernanceAgent.processInstruction demoAgent s w = (Returned env, w')
           /\ producedBy env = Some h
           /\ handles h = c).
Proof.
  intros (handles & H).
  destruct (H "Proposal Creation") as (? & h1 & ? & ? & ? & _ & _ & E1);
    [cbn; tauto|].
  destruct (H "Vote Casting") as (? & h2 & ? & ? & ? & _ & _ & E2);
    [cbn; tauto|].
  destruct (H "DAO Treasury Management") as (? & h3 & ? & ? & ? & _ & _ & E3);
    [cbn; tauto|].
  destruct (H "Governance Analytics") as (? & h4 & ? & ? & ? & _ & _ & E4);
    [cbn; tauto|].
  destruct h1, h2, h3, h4; congruence.
Qed.

(** C5 (amended).  The advertised sequence is the three capabilities that
    have a handler followed by two that have none: for each of
    'Proposal Creation', 'Vote Casting' and 'DAO Treasury Management' there
    is an instruction text that [processInstruction] routes, on every host,
    to the handler of that capability; no handler implements
    'Governance Analytics' or 'Member Management'. *)
Theorem routable_capabilities (self : GovernanceAgent.t) :
  GovernanceAgent.getCapabilities self =
    ([ "Proposal Creation"; "Vote Casting"; "DAO Treasury Management" ]
     ++ [ "Governance Analytics"; "Member Management" ])%list
  /\ (forall c,
        In c [ "Proposal Creation"; "Vote Casting"; "DAO Treasury Management" ] ->
        exists s h,
          capabilityOf h = c
          /\ forall w, exists env w',
               GovernanceAgent.processInstruction self s w = (Returned env, w')
               /\ producedBy env = Some h)
  /\ (forall c,
        In c [ "Governance Analytics"; "Member Management" ] ->
        forall h, capabilityOf h <> c).
Proof.
  split; [reflexivity|]. split.
  - assert (R : forall s h, classify s = Some h ->
                forall w, exists env w',
                  GovernanceAgent.processInstruction self s w = (Returned env, w')
                  /\ producedBy env = Some h).
    { intros s h C w.
      destruct (processInstruction_returns self s w) as (env & w' & E & P & _).
      exists env, w'. split; congruence. }
    intros c [<-|[<-|[<-|[]]]].
    + exists "create proposal", CreateProposal. split; [reflexivity|].
      now apply R.
    + exists "vote", CastVote. split; [reflexivity|]. now apply R.
    + exists "treasury", TreasuryAction. split; [reflexivity|]. now apply R.
  - intros c [<-|[<-|[]]] []; discriminate.
Qed.

(** The conditional chain computes the first match of the rule table. *)
Lemma classify_firstMatch (s : string) :
  classify s = firstMatch governanceRules (toLowerCase s).
Proof.
  unfold classify, governanceRules. cbn [firstMatch existsb].
  rewrite !orb_false_r.
  destruct (includes (toLowerCase s) "create proposal"); [reflexivity|].
  destruct (includes (toLowerCase s) "vote" || includes (toLowerCase s) "cast");
    [reflexivity|].
  destruct (includes (toLowerCase s) "treasury"); reflexivity.
Qed.

(** C6, as the claim states it, fails: an instruction may contain 'vote' and
    'treasury' and also 'create proposal', whose rule comes first. *)
Lemma vote_and_treasury_routed_to_proposal :
  includes (toLowerCase "Create proposal to vote on the treasury") "vote" = true
  /\ includes (toLowerCase "Create proposal to vote on the treasury") "treasury"
     = true
  /\ ~ (exists env w',
          GovernanceAgent.processInstruction
            demoAgent "Create proposal to vote on the treasury" demoWorld
            = (Returned env, w')
          /\ option_map payloadType (AgentResponse.data env) = Some "vote").
Proof.
  split; [reflexivity|]. split; [reflexivity|].
  intros (env & w' & R & T).
  destruct (runHandler_returns demoAgent CreateProposal
              "Create proposal to vote on the treasury" demoWorld)
    as (env0 & w0 & R0 & _ & _ & _ & _ & _ & _ & T0).
  change (runHandler demoAgent CreateProposal
            "Create proposal to vote on the treasury")
    with (GovernanceAgent.processInstruction
            demoAgent "Create proposal to vote on the treasury") in R0.
  rewrite R0 in R. injection R as <- <-.
  rewrite T0 in T. discriminate.
Qed.

(** C6 (amended).  [processInstruction] answers from the handler of the
    first rule, in the order create proposal, vote or cast, treasury, one of
    whose keywords occurs in the lower-cased instruction, and as unsupported
    when there is none.  In particular an instruction that contains 'vote'
    and 'treasury' but not 'create proposal' is answered by the vote handler,
    with payload type 'vote'. *)
Theorem first_match_routing
  (self : GovernanceAgent.t) (s : string) (w : World) :
  exists env w',
    GovernanceAgent.processInstruction self s w = (Returned env, w')
    /\ producedBy env = firstMatch governanceRules (toLowerCase s)
    /\ (includes (toLowerCase s) "vote" = true ->
        includes (toLowerCase s) "treasury" = true ->
        includes (toLowerCase s) "create proposal" = false ->
        producedBy env = Some CastVote
        /\ option_map payloadType (AgentResponse.data env) = Some "vote").
Proof.
  rewrite processInstruction_dispatch, <- classify_firstMatch.
  destruct (classify s) as [h|] eqn:C.
  - destruct (runHandler_returns self h s w)
      as (env & w' & R & P & _ & _ & _ & _ & _ & T).
    exists env, w'. split; [exact R|]. split; [exact P|].
    intros V _ N. unfold classify in C. rewrite N, V in C. cbn in C.
    injection C as <-. auto.
  - exists GovernanceAgent.unsupported, w. split; [reflexivity|].
    split; [reflexivity|].
    intros V _ N. unfold classify in C. rewrite N, V in C. discriminate.
Qed.

Lemma first_match_routing_witness :
  exists env w',
    GovernanceAgent.processInstruction
      demoAgent "Vote on the treasury budget" demoWorld = (Returned env, w')
    /\ producedBy env = Some CastVote
    /\ option_map payloadType (AgentResponse.data env) = Some "vote".
Proof.
  destruct (first_match_routing demoAgent "Vote on the treasury budget"
                                demoWorld) as (env & w' & R & _ & V).
  exists env, w'. split; [exact R|].
  apply V; reflexivity.
Defined.

(* ================================================================== *)
(** ** Vote direction *)

(** C7.  For every instruction routed to the vote handler, the payload is a
    vote whose [vote] field is 'against' when the lower-cased instruction
    contains 'against', and 'for' otherwise. *)
Theorem vote_direction
  (self : GovernanceAgent.t) (s : string) (w : World) :
  classify s = Some CastVote ->
  exists env w' v,
    GovernanceAgent.processInstruction self s w = (Returned env, w')
    /\ AgentResponse.data env = Some (Vote v)
    /\ VoteResult.vote v =
       (if includes (toLowerCase s) "against" then "against" else "for").
Proof.
  intros C. rewrite processInstruction_dispatch, C. cbn [runHandler].
  rewrite castVote_returns. do 3 eexists. split; [reflexivity|].
  split; [reflexivity|]. cbn.
  now destruct (includes (toLowerCase s) "against").
Qed.

Lemma vote_direction_witness :
  exists env w' v,
    GovernanceAgent.processInstruction demoAgent "vote" demoWorld
      = (Returned env, w')
    /\ AgentResponse.data env = Some (Vote v)
    /\ VoteResult.vote v = "for".
Proof.
  apply (vote_direction demoAgent "vote" demoWorld). reflexivity.
Defined.

(** The two worded scenarios of the vote handler. *)
Example vote_against_scenario :
  exists env w' v,
    GovernanceAgent.processInstruction
      demoAgent "Vote against proposal Gx7dJvn9" demoWorld = (Returned env, w')
    /\ AgentResponse.data env = Some (Vote v)
    /\ VoteResult.vote v = "against".
Proof. do 3 eexists. repeat split. Qed.

Example vote_for_scenario :
  exists env w' v,
    GovernanceAgent.processInstruction
      demoAgent "Vote for proposal Gx7dJvn9" demoWorld = (Returned env, w')
    /\ AgentResponse.data env = Some (Vote v)
    /\ VoteResult.vote v = "for".
Proof. do 3 eexists. repeat split. Qed.

(* ================================================================== *)
(** ** The simulated signer *)

(** C8.  [executeTransaction] returns the placeholder
    'simulated-transaction-signature' whatever it is given, by whichever
    agent, and submits nothing: apart from the ghost count of signer calls
    the host is as before. *)
Theorem executeTransaction_placeholder
  (A : Type) (self : GovernanceAgent.t) (transaction : A) (w : World) :
  GovernanceAgent.executeTransaction self transaction w =
    (Returned "simulated-transaction-signature",
     mkWorld (clock w) (clockReads w) (S (signerCalls w)) (submissions w))
  /\ submissions (snd (GovernanceAgent.executeTransaction self transaction w))
     = submissions w
  /\ forall (B : Type) (other : B),
       fst (GovernanceAgent.executeTransaction self other w)
       = fst (GovernanceAgent.executeTransaction self transaction w).
Proof. repeat split. Qed.

(* ================================================================== *)
(** ** Determinism of classification *)

(** C9.  Two calls with the same instruction on the same agent, from any two
    host states, both return, from the same handler: the envelopes agree on
    the success flag, on the presence of an error and on the type tag of the
    payload. *)
Theorem classification_deterministic
  (self : GovernanceAgent.t) (s : string) (w1 w2 : World) :
  exists env1 w1' env2 w2',
    GovernanceAgent.processInstruction self s w1 = (Returned env1, w1')
    /\ GovernanceAgent.processInstruction self s w2 = (Returned env2, w2')
    /\ producedBy env1 = producedBy env2
    /\ AgentResponse.success env1 = AgentResponse.success env2
    /\ (AgentResponse.error env1 = None <-> AgentResponse.error env2 = None)
    /\ option_map payloadType (AgentResponse.data env1)
       = option_map payloadType (AgentResponse.data env2).
Proof.
  rewrite processInstruction_dispatch.
  destruct (classify s) as [h|].
  - destruct (runHandler_returns self h s w1)
      as (e1 & v1 & R1 & P1 & S1 & E1 & _ & _ & _ & T1).
    destruct (runHandler_returns self h s w2)
      as (e2 & v2 & R2 & P2 & S2 & E2 & _ & _ & _ & T2).
    exists e1, v1, e2, v2. repeat split; try congruence; auto.
  - exists GovernanceAgent.unsupported, w1, GovernanceAgent.unsupported, w2.
    repeat split; auto.
Qed.

(** In particular when the second call follows the first. *)
Corollary classification_repeatable
  (self : GovernanceAgent.t) (s : string) (w : World) :
  exists env1 w1 env2 w2,
    GovernanceAgent.processInstruction self s w = (Returned env1, w1)
    /\ GovernanceAgent.processInstruction self s w1 = (Returned env2, w2)
    /\ producedBy env1 = producedBy env2.
Proof.
  destruct (processInstruction_returns self s w) as (e1 & v1 & R1 & P1 & _).
  destruct (processInstruction_returns self s v1) as (e2 & v2 & R2 & P2 & _).
  exists e1, v1, e2, v2. repeat split; congruence.
Qed.

(* ================================================================== *)
(** ** Totality *)

(** A text behind the marker that holds no double quote yields the default
    title. *)
Lemma unquoted_rest_defaults (rest : string) :
  ~ hasChar (ascii_of_nat 34) rest ->
  orElse (item (split (trim rest) dquote) 1) "Untitled Proposal"
  = "Untitled Proposal".
Proof.
  intros H.
  assert (Q : ~ hasChar (ascii_of_nat 34) (trim rest))
    by (intros Q; apply H; now apply hasChar_trim).
  apply includes_hasChar, splitOnce_none in Q.
  now rewrite (split_single _ _ dquote_nonempty Q).
Qed.

(** C10.  On every input string [processInstruction] returns an envelope and
    does not throw.  Where the instruction is routed to the proposal handler
    and contains the marker 'titled' with no double quote anywhere behind it,
    the indexing past the end of the pieces is absorbed and the title is
    'Untitled Proposal'. *)
Theorem processInstruction_total
  (self : GovernanceAgent.t) (s : string) (w : World) :
  exists env w',
    GovernanceAgent.processInstruction self s w = (Returned env, w')
    /\ (includes (toLowerCase s) "create proposal" = true ->
        includes s "titled" = true ->
        (forall before after,
           s = before ++ "titled" ++ after ->
           ~ hasChar (ascii_of_nat 34) after) ->
        exists p,
          AgentResponse.data env = Some (Proposal p)
          /\ ProposalResult.title p = "Untitled Proposal").
Proof.
  destruct (includes (toLowerCase s) "create proposal") eqn:K.
  - unfold GovernanceAgent.processInstruction. rewrite K.
    destruct (createProposal_returns self s w) as (title & -> & _ & D).
    do 2 eexists. split; [reflexivity|].
    intros _ T Q. eexists. split; [reflexivity|]. cbn.
    destruct (titled_rest s T) as (rest & b & a & tl & I & E & Ea).
    rewrite (D rest I T). apply unquoted_rest_defaults.
    intros Hq. apply (Q b a E). rewrite Ea. apply hasChar_app. now left.
  - destruct (processInstruction_returns self s w) as (env & w' & R & _).
    exists env, w'. split; [exact R|]. discriminate.
Qed.

Lemma processInstruction_total_witness :
  exists env w',
    GovernanceAgent.processInstruction
      demoAgent "Create proposal titled Fund Grants" demoWorld
      = (Returned env, w')
    /\ exists p,
         AgentResponse.data env = Some (Proposal p)
         /\ ProposalResult.title p = "Untitled Proposal".
Proof.
  destruct (processInstruction_total
              demoAgent "Create proposal titled Fund Grants" demoWorld)
    as (env & w' & R & D).
  exists env, w'. split; [exact R|].
  apply D; try reflexivity.
  intros before after E.
  assert (H : ~ hasChar (ascii_of_nat 34) "Create proposal titled Fund Grants").
  { cbn. intros H. repeat (destruct H as [H|H]; [discriminate H|]).
    exact H. }
  intros Q. apply H. rewrite E.
  apply hasChar_app. right. apply hasChar_app. now right.
Defined.

(* ================================================================== *)
(** ** Further facts about the string methods *)

Section MoreStringFacts.

Lemma append_empty_r (s : string) : s ++ EmptyString = s.
Proof. induction s; simpl; congruence. Qed.

Lemma append_assoc (a b c : string) : (a ++ b) ++ c = a ++ b ++ c.
Proof. induction a; simpl; congruence. Qed.

Lemma append_length (a b : string) :
  String.length (a ++ b) = String.length a + String.length b.
Proof. induction a; simpl; congruence. Qed.

Lemma append_cancel_r (a b t : string) : a ++ t = b ++ t -> a = b.
Proof.
  revert b; induction a as [|x a IH]; intros [|y b] H; simpl in H.
  - reflexivity.
  - apply (f_equal String.length) in H. simpl in H.
    rewrite append_length in H. lia.
  - apply (f_equal String.length) in H. simpl in H.
    rewrite append_length in H. lia.
  - injection H as -> H. f_equal. now apply IH.
Qed.

Lemma toLowerChar_idem (c : ascii) :
  toLowerChar (toLowerChar c) = toLowerChar c.
Proof. destruct c as [[] [] [] [] [] [] [] []]; reflexivity. Qed.

Lemma toLowerCase_idem (s : string) :
  toLowerCase (toLowerCase s) = toLowerCase s.
Proof.
  induction s as [|c s IH]; simpl; [reflexivity|].
  now rewrite toLowerChar_idem, IH.
Qed.

Lemma toLowerCase_app (a b : string) :
  toLowerCase (a ++ b) = toLowerCase a ++ toLowerCase b.
Proof. induction a; simpl; congruence. Qed.

Lemma prefix_app_r (k s b : string) :
  prefix k s = true -> prefix k (s ++ b) = true.
Proof.
  revert s; induction k as [|x k IH]; intros s H.
  - now destruct (s ++ b).
  - destruct s as [|y s]; simpl in *; [discriminate|].
    destruct (ascii_dec x y); [auto|discriminate].
Qed.

Lemma includes_app_r (s k b : string) :
  includes s k = true -> includes (s ++ b) k = true.
Proof.
  induction s as [|c s IH]; cbn [includes append]; intros H.
  - rewrite orb_false_r in H. destruct k; [|discriminate H].
    now destruct b.
  - apply orb_true_iff in H as [H|H]; apply orb_true_iff.
    + left. now apply (prefix_app_r k (String c s) b).
    + right. now apply IH.
Qed.

Lemma includes_app_l (a s k : string) :
  includes s k = true -> includes (a ++ s) k = true.
Proof.
  intros H. induction a as [|c a IH]; [exact H|].
  cbn [includes append]. rewrite IH. apply orb_true_r.
Qed.

Lemma includes_embedded (a s b k : string) :
  includes s k = true -> includes (a ++ s ++ b) k = true.
Proof. intros H. now apply includes_app_l, includes_app_r. Qed.

Lemma prefix_self_app (p y : string) : prefix p (p ++ y) = true.
Proof.
  induction p as [|c p IH]; simpl; [now destruct y|].
  destruct (ascii_dec c c); [exact IH|congruence].
Qed.

Lemma drop_app (p y : string) : drop (String.length p) (p ++ y) = y.
Proof. induction p; simpl; auto. Qed.

Lemma prefix_app_short (p x y : string) :
  prefix p (x ++ y) = true ->
  String.length p <= String.length x ->
  prefix p x = true.
Proof.
  revert x; induction p as [|c p IH]; intros x H L.
  - now destruct x.
  - destruct x as [|d x]; simpl in *; [lia|].
    destruct (ascii_dec c d); [|discriminate].
    apply IH; [exact H|lia].
Qed.

Lemma splitOnce_unfold (s sep : string) :
  splitOnce s sep =
  if prefix sep s then Some (EmptyString, drop (String.length sep) s)
  else match s with
       | EmptyString => None
       | String c s' =>
           match splitOnce s' sep with
           | Some (before, after) => Some (String c before, after)
           | None => None
           end
       end.
Proof. destruct s; reflexivity. Qed.

(** Where the separator does not occur earlier, [splitOnce] cuts at the
    given occurrence.  The separator is [front] and its last character [c]:
    an earlier occurrence would lie in [x ++ front]. *)
Lemma splitOnce_first (x front y : string) (c : ascii) :
  includes (x ++ front) (front ++ String c EmptyString) = false ->
  splitOnce (x ++ (front ++ String c EmptyString) ++ y)
            (front ++ String c EmptyString)
  = Some (x, y).
Proof.
  set (sep := front ++ String c EmptyString).
  induction x as [|a x IH]; intros H.
  - cbn [append]. rewrite splitOnce_unfold, prefix_self_app, drop_app.
    reflexivity.
  - cbn [includes append] in H. apply orb_false_elim in H as [P H].
    rewrite splitOnce_unfold.
    replace (prefix sep (String a x ++ sep ++ y)) with false.
    + cbn [append]. now rewrite (IH H).
    + symmetry. apply not_true_is_false. intros Q. 
      assert (E : String a x ++ sep ++ y
                  = String a (x ++ front) ++ String c y).
      { unfold sep. cbn [append]. f_equal.
        now rewrite !append_assoc. }
      rewrite E in Q. apply prefix_app_short in Q; [congruence|].
      unfold sep. cbn [String.length]. rewrite !append_length. simpl. lia.
Qed.

Lemma splitOnce_char (x y : string) (c : ascii) :
  ~ hasChar c x ->
  splitOnce (x ++ String c y) (String c EmptyString) = Some (x, y).
Proof.
  intros H.
  apply (splitOnce_first x EmptyString y c).
  rewrite append_empty_r. now apply includes_hasChar.
Qed.

End MoreStringFacts.

Section TrimAndPieces.

Lemma trimStart_blank_app (gap y : string) (c : ascii) :
  blank gap = true ->
  isWhiteSpace c = false ->
  trimStart (gap ++ String c y) = String c y.
Proof.
  intros B C. induction gap as [|a gap IH]; cbn [append trimStart].
  - now rewrite C.
  - cbn [blank] in B. apply andb_prop in B as [-> B]. now apply IH.
Qed.

Lemma trimEnd_cons (c : ascii) (y : string) :
  isWhiteSpace c = false ->
  trimEnd (String c y) = String c (trimEnd y).
Proof. intros C. cbn [trimEnd]. rewrite C. now destruct (trimEnd y). Qed.

Lemma trimEnd_app (x y : string) (c : ascii) :
  isWhiteSpace c = false ->
  trimEnd (x ++ String c y) = x ++ String c (trimEnd y).
Proof.
  intros C. induction x as [|a x IH]; cbn [append].
  - now apply trimEnd_cons.
  - cbn [trimEnd]. rewrite IH. now destruct x.
Qed.

Lemma trimStart_suffix (s : string) : exists pre, s = pre ++ trimStart s.
Proof.
  induction s as [|c s [pre IH]]; cbn [trimStart].
  - now exists EmptyString.
  - destruct (isWhiteSpace c).
    + exists (String c pre). cbn [append]. now f_equal.
    + now exists EmptyString.
Qed.

Lemma trimEnd_prefix (s : string) : exists post, s = trimEnd s ++ post.
Proof.
  induction s as [|c s [post IH]]; cbn [trimEnd].
  - now exists EmptyString.
  - destruct (trimEnd s) as [|d t] eqn:E.
    + destruct (isWhiteSpace c).
      * now exists (String c s).
      * exists s. reflexivity.
    + exists post. cbn [append]. now f_equal.
Qed.

Lemma partOf_refl (s : string) : partOf s s.
Proof. exists EmptyString, EmptyString. now rewrite append_empty_r. Qed.

Lemma partOf_trans (a b c : string) : partOf a b -> partOf b c -> partOf a c.
Proof.
  intros (p1 & q1 & ->) (p2 & q2 & ->).
  exists (p2 ++ p1), (q1 ++ q2). now rewrite !append_assoc.
Qed.

Lemma partOf_app_l (t a b : string) : partOf t a -> partOf t (a ++ b).
Proof.
  intros (p & q & ->). exists p, (q ++ b). now rewrite !append_assoc.
Qed.

Lemma partOf_app_r (t a b : string) : partOf t b -> partOf t (a ++ b).
Proof.
  intros (p & q & ->). exists (a ++ p), q. now rewrite !append_assoc.
Qed.

Lemma trim_partOf (s : string) : partOf (trim s) s.
Proof.
  unfold trim. destruct (trimStart_suffix s) as [pre E].
  destruct (trimEnd_prefix (trimStart s)) as [post F].
  exists pre, post. now rewrite <- F.
Qed.

Lemma hasChar_includes (c : ascii) (s : string) :
  includes s (String c EmptyString) = false -> ~ hasChar c s.
Proof.
  unfold hasChar. induction s as [|a s IH]; cbn [includes]; intros H.
  - intros [].
  - apply orb_false_elim in H as [P H]. intros [->|I].
    + simpl in P. destruct (ascii_dec c c); [|congruence].
      destruct s; discriminate.
    + now apply IH.
Qed.

(** The text before the cut holds no occurrence of a one-character
    separator. *)
Lemma splitOnce_before_free (c : ascii) (s before after : string) :
  splitOnce s (String c EmptyString) = Some (before, after) ->
  ~ hasChar c before.
Proof.
  revert before after; induction s as [|a s IH]; intros before after H;
    rewrite splitOnce_unfold in H.
  - simpl in H. discriminate.
  - destruct (prefix (String c EmptyString) (String a s)) eqn:P.
    + injection H as <- _. intros [].
    + destruct (splitOnce s (String c EmptyString)) as [[b r]|] eqn:E;
        [|discriminate].
      injection H as <- _. intros [->|I].
      * simpl in P. destruct (ascii_dec c c); [|congruence].
        destruct s; discriminate.
      * now apply (IH b r).
Qed.

(** No piece of a split at a character holds that character. *)
Lemma split_pieces_free (c : ascii) (s piece : string) :
  In piece (split s (String c EmptyString)) -> ~ hasChar c piece.
Proof.
  unfold split.
  assert (G : forall n s,
             String.length s <= n ->
             In piece (splitLoop n s (String c EmptyString)) ->
             ~ hasChar c piece).
  { induction n as [|n IH]; intros t L; cbn [splitLoop].
    - destruct t; [|simpl in L; lia]. intros [<-|[]] [].
    - destruct (splitOnce t (String c EmptyString)) as [[b a]|] eqn:E.
      + intros [<-|I].
        * now apply (splitOnce_before_free c t b a).
        * apply (IH a); [|exact I].
          assert (String c EmptyString <> EmptyString) by discriminate.
          pose proof (splitOnce_shorter _ _ _ _ H E). lia.
      + intros [<-|[]]. apply hasChar_includes.
        destruct (includes t (String c EmptyString)) eqn:I; [|reflexivity].
        destruct (splitOnce_includes _ _ I) as (? & ? & F). congruence. }
  now apply G.
Qed.

(** Every piece of a split is a part of the text. *)
Lemma split_pieces_part (s sep piece : string) :
  sep <> EmptyString ->
  In piece (split s sep) -> partOf piece s.
Proof.
  intros Hsep. unfold split. destruct sep as [|c0 sep0]; [congruence|].
  generalize (String.length s). intros n; revert s.
  induction n as [|n IH]; intros s; cbn [splitLoop].
  - intros [<-|[]]. apply partOf_refl.
  - destruct (splitOnce s (String c0 sep0)) as [[b a]|] eqn:E.
    + apply splitOnce_app in E. intros [<-|I].
      * exists EmptyString, (String c0 sep0 ++ a). exact E.
      * rewrite E. apply partOf_app_r, partOf_app_r. now apply IH.
    + intros [<-|[]]. apply partOf_refl.
Qed.

End TrimAndPieces.

(* ================================================================== *)
(** ** The proposal title, in general *)

Section ProposalTitle.

Variable self : GovernanceAgent.t.

Lemma dquote_not_white : isWhiteSpace (ascii_of_nat 34) = false.
Proof. reflexivity. Qed.

Lemma splitOnce_found (s sep before after : string) :
  splitOnce s sep = Some (before, after) -> includes s sep = true.
Proof.
  intros E. destruct (includes s sep) eqn:I; [reflexivity|].
  rewrite (splitOnce_none _ _ I) in E. discriminate.
Qed.

(** What a call routed to the proposal handler returns, in terms of the
    piece behind the first marker. *)
Lemma proposal_envelope (s : string) (w : World) :
  classify s = Some CreateProposal ->
  exists title created ends w',
    GovernanceAgent.processInstruction self s w =
      (Returned
         (AgentResponse.mk
            true
            ("Created new governance proposal: " ++ dquote ++ title ++ dquote)
            (Some (Proposal (ProposalResult.mk
               "proposal" title created
               "Gx7dJvn9PD9G6uUPsVQCjrCgPy9ogHZ7GzZm5HVF37EL" ends)))
            None None),
       w')
    /\ (includes s "titled" = false -> title = "Untitled Proposal")
    /\ (forall rest,
          item (split s "titled") 1 = Some rest ->
          title = orElse (item (split (trim rest) dquote) 1)
                         "Untitled Proposal").
Proof.
  intros C. rewrite processInstruction_dispatch, C. cbn [runHandler].
  destruct (createProposal_returns self s w) as (title & -> & D & T).
  do 4 eexists. split; [reflexivity|]. split; [exact D|].
  intros rest I. apply T; [exact I|].
  destruct (includes s "titled") eqn:N; [reflexivity|].
  unfold item in I.
  rewrite (split_single _ _ titled_nonempty (splitOnce_none _ _ N)) in I.
  discriminate.
Qed.

(** The piece the handler works on when the marker first occurs behind
    [before] and the next marker, if any, behind [piece]. *)
Lemma titled_piece_next (before piece more : string) :
  includes (before ++ "title") "titled" = false ->
  includes (piece ++ "title") "titled" = false ->
  item (split (before ++ "titled" ++ piece ++ "titled" ++ more) "titled") 1
  = Some piece.
Proof.
  intros B P.
  pose proof (splitOnce_first before "title" (piece ++ "titled" ++ more)
                              "d"%char B) as E1.
  pose proof (splitOnce_first piece "title" more "d"%char P) as E2.
  cbn [append] in E1, E2. cbn [append].
  rewrite (split_cons _ _ _ _ titled_nonempty E1).
  rewrite (split_cons _ _ _ _ titled_nonempty E2).
  reflexivity.
Qed.

Lemma titled_piece_last (before after : string) :
  includes (before ++ "title") "titled" = false ->
  includes after "titled" = false ->
  item (split (before ++ "titled" ++ after) "titled") 1 = Some after.
Proof.
  intros B A.
  pose proof (splitOnce_first before "title" after "d"%char B) as E1.
  cbn [append] in E1. cbn [append].
  rewrite (split_cons _ _ _ _ titled_nonempty E1).
  rewrite (split_single _ _ titled_nonempty (splitOnce_none _ _ A)).
  reflexivity.
Qed.

(** The second piece of a split at the double quote, for a text that starts
    with white space and then a quote. *)
Lemma quoted_closed (gap t rest : string) :
  blank gap = true ->
  ~ hasChar (ascii_of_nat 34) t ->
  item (split (trim (gap ++ dquote ++ t ++ dquote ++ rest)) dquote) 1
  = Some t.
Proof.
  intros G Q. unfold trim, dquote. cbn [append].
  assert (NE : String (ascii_of_nat 34) EmptyString <> EmptyString)
    by discriminate.
  rewrite (trimStart_blank_app gap _ _ G dquote_not_white).
  rewrite (trimEnd_cons _ _ dquote_not_white).
  rewrite (trimEnd_app _ _ _ dquote_not_white).
  pose proof (splitOnce_char EmptyString
                (t ++ String (ascii_of_nat 34) (trimEnd rest))
                (ascii_of_nat 34) (fun H => H)) as E1.
  pose proof (splitOnce_char t (trimEnd rest) (ascii_of_nat 34) Q) as E2.
  cbn [append] in E1.
  rewrite (split_cons _ _ _ _ NE E1).
  rewrite (split_cons _ _ _ _ NE E2).
  reflexivity.
Qed.

Lemma quoted_open (gap t : string) :
  blank gap = true ->
  ~ hasChar (ascii_of_nat 34) t ->
  item (split (trim (gap ++ dquote ++ t)) dquote) 1 = Some (trimEnd t).
Proof.
  intros G Q. unfold trim, dquote. cbn [append].
  assert (NE : String (ascii_of_nat 34) EmptyString <> EmptyString)
    by discriminate.
  rewrite (trimStart_blank_app gap _ _ G dquote_not_white).
  rewrite (trimEnd_cons _ _ dquote_not_white).
  pose proof (splitOnce_char EmptyString (trimEnd t)
                (ascii_of_nat 34) (fun H => H)) as E1.
  cbn [append] in E1.
  rewrite (split_cons _ _ _ _ NE E1).
  assert (N : ~ hasChar (ascii_of_nat 34) (trimEnd t))
    by (intros H; apply Q; now apply hasChar_trimEnd).
  apply includes_hasChar, splitOnce_none in N.
  rewrite (split_single _ _ NE N).
  reflexivity.
Qed.

End ProposalTitle.

(** Round trip of the title.  An instruction routed to the proposal handler
    in which the marker 'titled' occurs exactly once (no occurrence starts
    within [before], none lies behind the marker), followed by white space
    only and then a non-empty text [t] between double quotes, yields a
    proposal whose title is [t], quoted again in the message. *)
Theorem title_round_trip
  (self : GovernanceAgent.t) (before gap t rest : string) (w : World) :
  classify (before ++ "titled" ++ gap ++ dquote ++ t ++ dquote ++ rest)
    = Some CreateProposal ->
  includes (before ++ "title") "titled" = false ->
  includes (gap ++ dquote ++ t ++ dquote ++ rest) "titled" = false ->
  blank gap = true ->
  ~ hasChar (ascii_of_nat 34) t ->
  t <> EmptyString ->
  exists env w' p,
    GovernanceAgent.processInstruction
      self (before ++ "titled" ++ gap ++ dquote ++ t ++ dquote ++ rest) w
      = (Returned env, w')
    /\ AgentResponse.data env = Some (Proposal p)
    /\ ProposalResult.title p = t
    /\ AgentResponse.message env
       = "Created new governance proposal: " ++ dquote ++ t ++ dquote.
Proof.
  intros C B A G Q N.
  destruct (proposal_envelope self _ w C) as (title & c & e & w' & R & _ & T).
  rewrite R.
  specialize (T _ (titled_piece_last before _ B A)).
  rewrite (quoted_closed gap t rest G Q) in T.
  assert (E : title = t) by (destruct t; [congruence|exact T]).
  clear T. subst title. do 3 eexists.
  split; [reflexivity|]. split; [reflexivity|]. split; reflexivity.
Qed.

Lemma title_round_trip_witness :
  exists env w' p,
    GovernanceAgent.processInstruction
      demoAgent
      ("Please create proposal " ++ "titled" ++ "  " ++ dquote
         ++ "Fund Grants" ++ dquote ++ " for the grants round")
      demoWorld
      = (Returned env, w')
    /\ AgentResponse.data env = Some (Proposal p)
    /\ ProposalResult.title p = "Fund Grants"
    /\ AgentResponse.message env
       = "Created new governance proposal: " ++ dquote ++ "Fund Grants"
           ++ dquote.
Proof.
  apply (title_round_trip demoAgent "Please create proposal " "  "
           "Fund Grants" " for the grants round" demoWorld);
    try reflexivity.
  - cbn. intros H. repeat (destruct H as [H|H]; [discriminate H|]). exact H.
  - discriminate.
Defined.

(** A second marker cuts the title.  Where the quoted text itself runs into
    another 'titled', as in a title that contains 'Untitled', the title is
    the text between the opening quote and that marker, without trailing
    white space, or the default when nothing is left.  The hypotheses on
    [includes] say that the two markers written out are the first two. *)
Theorem title_cut_at_marker
  (self : GovernanceAgent.t) (before gap t more : string) (w : World) :
  classify (before ++ "titled" ++ (gap ++ dquote ++ t) ++ "titled" ++ more)
    = Some CreateProposal ->
  includes (before ++ "title") "titled" = false ->
  includes ((gap ++ dquote ++ t) ++ "title") "titled" = false ->
  blank gap = true ->
  ~ hasChar (ascii_of_nat 34) t ->
  exists env w' p,
    GovernanceAgent.processInstruction
      self (before ++ "titled" ++ (gap ++ dquote ++ t) ++ "titled" ++ more) w
      = (Returned env, w')
    /\ AgentResponse.data env = Some (Proposal p)
    /\ ProposalResult.title p
       = orElse (Some (trimEnd t)) "Untitled Proposal".
Proof.
  intros C B P G Q.
  destruct (proposal_envelope self _ w C) as (title & c & e & w' & R & _ & T).
  rewrite R.
  specialize (T _ (titled_piece_next before _ more B P)).
  rewrite (quoted_open gap t G Q) in T.
  subst title. do 3 eexists.
  split; [reflexivity|]. split; reflexivity.
Qed.

Lemma title_cut_at_marker_witness :
  exists env w' p,
    GovernanceAgent.processInstruction
      demoAgent
      ("Create proposal " ++ "titled" ++ (" " ++ dquote ++ "Un")
         ++ "titled" ++ " Work" ++ dquote)
      demoWorld
      = (Returned env, w')
    /\ AgentResponse.data env = Some (Proposal p)
    /\ ProposalResult.title p = "Un".
Proof.
  apply (title_cut_at_marker demoAgent "Create proposal " " " "Un"
           (" Work" ++ dquote) demoWorld);
    try reflexivity.
  cbn. intros H. repeat (destruct H as [H|H]; [discriminate H|]). exact H.
Defined.

(** Shape of every title.  Whatever the instruction, the title of a proposal
    is not empty and holds no double quote; it is the default or a part of
    the instruction text; and the message is the fixed prefix followed by
    the title between double quotes. *)
Theorem title_well_formed
  (self : GovernanceAgent.t) (s : string) (w : World) :
  classify s = Some CreateProposal ->
  exists env w' p,
    GovernanceAgent.processInstruction self s w = (Returned env, w')
    /\ AgentResponse.data env = Some (Proposal p)
    /\ ProposalResult.title p <> EmptyString
    /\ ~ hasChar (ascii_of_nat 34) (ProposalResult.title p)
    /\ (ProposalResult.title p = "Untitled Proposal"
        \/ partOf (ProposalResult.title p) s)
    /\ AgentResponse.message env
       = "Created new governance proposal: " ++ dquote
           ++ ProposalResult.title p ++ dquote.
Proof.
  intros C.
  destruct (proposal_envelope self s w C) as (title & c & e & w' & R & D & T).
  rewrite R. do 3 eexists. split; [reflexivity|]. split; [reflexivity|].
  cbn [ProposalResult.title AgentResponse.message].
  assert (Dflt : "Untitled Proposal" <> EmptyString
                 /\ ~ hasChar (ascii_of_nat 34) "Untitled Proposal").
  { split; [discriminate|]. cbn. intros H.
    repeat (destruct H as [H|H]; [discriminate H|]). exact H. }
  assert (K : (title <> EmptyString /\ ~ hasChar (ascii_of_nat 34) title)
              /\ (title = "Untitled Proposal" \/ partOf title s));
    [|tauto].
  destruct (includes s "titled") eqn:I.
  - destruct (titled_rest s I) as (rest & b & a & tl & It & E & Ea).
    rewrite (T rest It).
    destruct (item (split (trim rest) dquote) 1) as [[|x t]|] eqn:J;
      cbn [orElse]; [tauto| |tauto].
    apply nth_error_In in J. split.
    + split; [discriminate|]. now apply (split_pieces_free _ (trim rest)).
    + right.
      apply (partOf_trans _ (trim rest));
        [now apply (split_pieces_part _ dquote _ dquote_nonempty)|].
      apply (partOf_trans _ rest); [apply trim_partOf|].
      rewrite E, Ea. apply partOf_app_r, partOf_app_r, partOf_app_l.
      apply partOf_refl.
  - rewrite (D eq_refl). tauto.
Qed.

Lemma title_well_formed_witness :
  exists env w' p,
    GovernanceAgent.processInstruction
      demoAgent ("create proposal titled x" ++ dquote ++ "A" ++ dquote)
      demoWorld
      = (Returned env, w')
    /\ AgentResponse.data env = Some (Proposal p)
    /\ ProposalResult.title p <> EmptyString
    /\ ~ hasChar (ascii_of_nat 34) (ProposalResult.title p)
    /\ (ProposalResult.title p = "Untitled Proposal"
        \/ partOf (ProposalResult.title p)
                  ("create proposal titled x" ++ dquote ++ "A" ++ dquote))
    /\ AgentResponse.message env
       = "Created new governance proposal: " ++ dquote
           ++ ProposalResult.title p ++ dquote.
Proof.
  apply (title_well_formed demoAgent
           ("create proposal titled x" ++ dquote ++ "A" ++ dquote) demoWorld).
  reflexivity.
Defined.

(** An earlier marker hides a later title.  Only the text between the first
    'titled' and the next one is searched for a quoted title: when that text
    holds no double quote, as when the first 'titled' is the end of a word
    such as 'entitled', the title is the default whatever follows the second
    marker. *)
Theorem title_hidden_by_earlier_marker
  (self : GovernanceAgent.t) (before piece more : string) (w : World) :
  classify (before ++ "titled" ++ piece ++ "titled" ++ more)
    = Some CreateProposal ->
  includes (before ++ "title") "titled" = false ->
  includes (piece ++ "title") "titled" = false ->
  ~ hasChar (ascii_of_nat 34) piece ->
  exists env w' p,
    GovernanceAgent.processInstruction
      self (before ++ "titled" ++ piece ++ "titled" ++ more) w
      = (Returned env, w')
    /\ AgentResponse.data env = Some (Proposal p)
    /\ ProposalResult.title p = "Untitled Proposal".
Proof.
  intros C B P Q.
  destruct (proposal_envelope self _ w C) as (title & c & e & w' & R & _ & T).
  rewrite R.
  specialize (T _ (titled_piece_next before piece more B P)).
  rewrite (unquoted_rest_defaults piece Q) in T.
  subst title. do 3 eexists.
  split; [reflexivity|]. split; reflexivity.
Qed.

Lemma title_hidden_by_earlier_marker_witness :
  exists env w' p,
    GovernanceAgent.processInstruction
      demoAgent
      ("Create proposal for en" ++ "titled" ++ " members " ++ "titled"
         ++ " " ++ dquote ++ "Fund Grants" ++ dquote)
      demoWorld
      = (Returned env, w')
    /\ AgentResponse.data env = Some (Proposal p)
    /\ ProposalResult.title p = "Untitled Proposal".
Proof.
  apply (title_hidden_by_earlier_marker demoAgent "Create proposal for en"
           " members " (" " ++ dquote ++ "Fund Grants" ++ dquote) demoWorld);
    try reflexivity.
  cbn. intros H. repeat (destruct H as [H|H]; [discriminate H|]). exact H.
Defined.

(* ================================================================== *)
(** ** Timestamps *)

(** What a handler stamps and how it leaves the clock: the first timestamp is
    the reading at the moment of the call, and the call consumes at least one
    reading and no more than two. *)
Lemma runHandler_stamp
  (self : GovernanceAgent.t) (h : Handler) (s : string) (w : World) :
  exists env w' d,
    runHandler self h s w = (Returned env, w')
    /\ AgentResponse.data env = Some d
    /\ issuedAt d = toISOString (clock w (clockReads w))
    /\ clock w' = clock w
    /\ clockReads w < clockReads w' <= 2 + clockReads w.
Proof.
  destruct h; cbn [runHandler].
  - destruct (createProposal_returns self s w) as (title & -> & _).
    do 3 eexists. split; [reflexivity|]. split; [reflexivity|]. cbn.
    repeat split; lia.
  - rewrite castVote_returns.
    do 3 eexists. split; [reflexivity|]. split; [reflexivity|]. cbn.
    repeat split; lia.
  - do 3 eexists. split; [reflexivity|]. split; [reflexivity|]. cbn.
    repeat split; lia.
Qed.

(** The voting window.  On a host whose clock never runs backwards, a
    proposal's [votingEndsAt] lies at least three days (259200000 ms) behind
    its [createdAt]: exactly three days plus the time that passed between the
    two clock readings the handler makes. *)
Theorem voting_window
  (self : GovernanceAgent.t) (s : string) (w : World) :
  classify s = Some CreateProposal ->
  monotoneClock w ->
  exists env w' p,
    GovernanceAgent.processInstruction self s w = (Returned env, w')
    /\ AgentResponse.data env = Some (Proposal p)
    /\ (timeValueOf (ProposalResult.createdAt p) + 259200000
        <= timeValueOf (ProposalResult.votingEndsAt p))%Z
    /\ (timeValueOf (ProposalResult.votingEndsAt p)
        - timeValueOf (ProposalResult.createdAt p)
        = 259200000
          + (clock w (S (clockReads w)) - clock w (clockReads w)))%Z.
Proof.
  intros C M. rewrite processInstruction_dispatch, C. cbn [runHandler].
  destruct (createProposal_returns self s w) as (title & -> & _).
  do 3 eexists. split; [reflexivity|]. split; [reflexivity|].
  cbn [ProposalResult.createdAt ProposalResult.votingEndsAt timeValueOf].
  pose proof (M (clockReads w) (S (clockReads w)) (Nat.le_succ_diag_r _)).
  lia.
Qed.

Lemma voting_window_witness :
  exists env w' p,
    GovernanceAgent.processInstruction demoAgent "create proposal" demoWorld
      = (Returned env, w')
    /\ AgentResponse.data env = Some (Proposal p)
    /\ (timeValueOf (ProposalResult.createdAt p) + 259200000
        <= timeValueOf (ProposalResult.votingEndsAt p))%Z
    /\ (timeValueOf (ProposalResult.votingEndsAt p)
        - timeValueOf (ProposalResult.createdAt p)
        = 259200000
          + (clock demoWorld (S (clockReads demoWorld))
             - clock demoWorld (clockReads demoWorld)))%Z.
Proof.
  apply (voting_window demoAgent "create proposal" demoWorld).
  - reflexivity.
  - intros i j L. cbn. lia.
Defined.

(** Calls in sequence are stamped in order.  When two supported instructions
    are processed one after the other on a host whose clock never runs
    backwards, the payload of the second is not stamped earlier than the
    payload of the first. *)
Theorem stamps_follow_call_order
  (self : GovernanceAgent.t) (s1 s2 : string) (w : World) :
  classify s1 <> None ->
  classify s2 <> None ->
  monotoneClock w ->
  exists env1 w1 d1 env2 w2 d2,
    GovernanceAgent.processInstruction self s1 w = (Returned env1, w1)
    /\ GovernanceAgent.processInstruction self s2 w1 = (Returned env2, w2)
    /\ AgentResponse.data env1 = Some d1
    /\ AgentResponse.data env2 = Some d2
    /\ (timeValueOf (issuedAt d1) <= timeValueOf (issuedAt d2))%Z.
Proof.
  intros C1 C2 M. rewrite !processInstruction_dispatch.
  destruct (classify s1) as [h1|]; [|congruence].
  destruct (classify s2) as [h2|]; [|congruence].
  destruct (runHandler_stamp self h1 s1 w)
    as (e1 & w1 & d1 & R1 & D1 & I1 & K1 & L1).
  destruct (runHandler_stamp self h2 s2 w1)
    as (e2 & w2 & d2 & R2 & D2 & I2 & _).
  exists e1, w1, d1, e2, w2, d2. repeat (split; [assumption|]).
  rewrite I1, I2, K1. cbn [timeValueOf]. apply M. lia.
Qed.

Lemma stamps_follow_call_order_witness :
  exists env1 w1 d1 env2 w2 d2,
    GovernanceAgent.processInstruction demoAgent "create proposal" demoWorld
      = (Returned env1, w1)
    /\ GovernanceAgent.processInstruction demoAgent "vote" w1
       = (Returned env2, w2)
    /\ AgentResponse.data env1 = Some d1
    /\ AgentResponse.data env2 = Some d2
    /\ (timeValueOf (issuedAt d1) <= timeValueOf (issuedAt d2))%Z.
Proof.
  apply (stamps_follow_call_order demoAgent "create proposal" "vote" demoWorld).
  - discriminate.
  - discriminate.
  - intros i j L. cbn. lia.
Defined.

(* ================================================================== *)
(** ** Routing, in general *)

Lemma classify_supported (s : string) :
  classify s <> None <->
  existsb (includes (toLowerCase s)) keywords = true.
Proof.
  unfold classify, keywords. cbn [existsb].
  destruct (includes (toLowerCase s) "create proposal"),
           (includes (toLowerCase s) "vote"),
           (includes (toLowerCase s) "cast"),
           (includes (toLowerCase s) "treasury"); cbn;
    split; congruence.
Qed.

(** Rejection, exactly.  [processInstruction] answers with [success = false]
    if and only if the lower-cased instruction contains none of the four
    keywords; with any one of them present the call succeeds and carries
    data. *)
Theorem rejected_iff_no_keyword
  (self : GovernanceAgent.t) (s : string) (w : World) :
  exists env w',
    GovernanceAgent.processInstruction self s w = (Returned env, w')
    /\ (AgentResponse.success env = false
        <-> forall k, In k keywords -> includes (toLowerCase s) k = false)
    /\ (AgentResponse.success env = true
        <-> exists k, In k keywords /\ includes (toLowerCase s) k = true)
    /\ (AgentResponse.success env = true
        <-> AgentResponse.data env <> None).
Proof.
  destruct (processInstruction_returns self s w)
    as (env & w' & R & P & S & _).
  exists env, w'. split; [exact R|].
  rewrite classify_supported, existsb_exists in S.
  assert (D : AgentResponse.data env <> None <-> producedBy env <> None).
  { unfold producedBy. destruct (AgentResponse.data env) as [[]|];
      split; congruence. }
  split; [|split; [exact S|]].
  - split.
    + intros F k I. apply not_true_is_false. intros E.
      assert (T : AgentResponse.success env = true) by (apply S; eauto).
      congruence.
    + intros H. apply not_true_is_false. intros T.
      apply S in T as (k & I & E). rewrite (H k I) in E. discriminate.
  - rewrite D, P, classify_supported, existsb_exists. exact S.
Qed.

(** Letter case does not matter.  Two instructions with the same lower-cased
    text are answered by the same handler, and where that is the vote handler
    they vote in the same direction. *)
Theorem routing_ignores_case
  (self : GovernanceAgent.t) (s1 s2 : string) (w1 w2 : World) :
  toLowerCase s1 = toLowerCase s2 ->
  exists env1 w1' env2 w2',
    GovernanceAgent.processInstruction self s1 w1 = (Returned env1, w1')
    /\ GovernanceAgent.processInstruction self s2 w2 = (Returned env2, w2')
    /\ producedBy env1 = producedBy env2
    /\ (forall v1 v2,
          AgentResponse.data env1 = Some (Vote v1) ->
          AgentResponse.data env2 = Some (Vote v2) ->
          VoteResult.vote v1 = VoteResult.vote v2).
Proof.
  intros E.
  assert (C : classify s1 = classify s2) by (unfold classify; now rewrite E).
  rewrite !processInstruction_dispatch, <- C.
  destruct (classify s1) as [[]|]; cbn [runHandler].
  - destruct (createProposal_returns self s1 w1) as (t1 & -> & _).
    destruct (createProposal_returns self s2 w2) as (t2 & -> & _).
    do 4 eexists. split; [reflexivity|]. split; [reflexivity|].
    split; [reflexivity|]. discriminate.
  - rewrite !castVote_returns, E.
    do 4 eexists. split; [reflexivity|]. split; [reflexivity|].
    split; [reflexivity|]. intros v1 v2 [= <-] [= <-]. reflexivity.
  - do 4 eexists. split; [reflexivity|]. split; [reflexivity|].
    split; [reflexivity|]. discriminate.
  - do 4 eexists. split; [reflexivity|]. split; [reflexivity|].
    split; [reflexivity|]. discriminate.
Qed.

Lemma routing_ignores_case_witness :
  exists env1 w1' env2 w2',
    GovernanceAgent.processInstruction
      demoAgent "VOTE AGAINST Proposal 7" demoWorld = (Returned env1, w1')
    /\ GovernanceAgent.processInstruction
         demoAgent "vote against proposal 7" demoWorld = (Returned env2, w2')
    /\ producedBy env1 = producedBy env2
    /\ (forall v1 v2,
          AgentResponse.data env1 = Some (Vote v1) ->
          AgentResponse.data env2 = Some (Vote v2) ->
          VoteResult.vote v1 = VoteResult.vote v2).
Proof.
  apply (routing_ignores_case demoAgent "VOTE AGAINST Proposal 7"
           "vote against proposal 7" demoWorld demoWorld).
  reflexivity.
Defined.

(** In particular an instruction and its lower-cased form are routed alike. *)
Corollary classify_toLowerCase (s : string) :
  classify (toLowerCase s) = classify s.
Proof. unfold classify. now rewrite toLowerCase_idem. Qed.

(** More text never loses support.  An instruction that is supported stays
    supported when text is put before and behind it; one routed to the
    proposal handler stays routed there; and a vote against, if the longer
    text is still answered by the vote handler, stays a vote against. *)
Theorem support_survives_context
  (self : GovernanceAgent.t) (a s b : string) (w : World) :
  classify s <> None ->
  exists env w',
    GovernanceAgent.processInstruction self (a ++ s ++ b) w = (Returned env, w')
    /\ AgentResponse.success env = true
    /\ (classify s = Some CreateProposal ->
        producedBy env = Some CreateProposal)
    /\ (includes (toLowerCase s) "against" = true ->
        forall v, AgentResponse.data env = Some (Vote v) ->
                  VoteResult.vote v = "against").
Proof.
  intros C.
  assert (K : forall k, includes (toLowerCase s) k = true ->
                        includes (toLowerCase (a ++ s ++ b)) k = true).
  { intros k H. rewrite !toLowerCase_app. now apply includes_embedded. }
  assert (C' : classify (a ++ s ++ b) <> None).
  { apply classify_supported. apply classify_supported in C.
    apply existsb_exists in C as (k & I & H).
    apply existsb_exists. exists k. auto. }
  assert (P : classify s = Some CreateProposal ->
              classify (a ++ s ++ b) = Some CreateProposal).
  { unfold classify at 1.
    destruct (includes (toLowerCase s) "create proposal") eqn:E.
    - intros _. unfold classify. now rewrite (K _ E).
    - destruct (includes (toLowerCase s) "vote"
                || includes (toLowerCase s) "cast"); [discriminate|].
      destruct (includes (toLowerCase s) "treasury"); discriminate. }
  rewrite processInstruction_dispatch.
  destruct (classify (a ++ s ++ b)) as [h|]; [|congruence].
  destruct (runHandler_returns self h (a ++ s ++ b) w)
    as (env & w' & R & Pr & S & _).
  exists env, w'. split; [exact R|]. split; [exact S|]. split.
  - intros Q. specialize (P Q). congruence.
  - intros A v D. destruct h; cbn [runHandler] in R.
    + destruct (createProposal_returns self (a ++ s ++ b) w) as (t & R' & _).
      rewrite R' in R. injection R as <- _. discriminate.
    + rewrite castVote_returns in R. injection R as <- _.
      cbn in D. injection D as <-. cbn. now rewrite (K _ A).
    + injection R as <- _. discriminate.
Qed.

Lemma support_survives_context_witness :
  exists env w',
    GovernanceAgent.processInstruction
      demoAgent ("Please " ++ "vote against" ++ " proposal 7") demoWorld
      = (Returned env, w')
    /\ AgentResponse.success env = true
    /\ (classify "vote against" = Some CreateProposal ->
        producedBy env = Some CreateProposal)
    /\ (includes (toLowerCase "vote against") "against" = true ->
        forall v, AgentResponse.data env = Some (Vote v) ->
                  VoteResult.vote v = "against").
Proof.
  apply (support_survives_context demoAgent "Please " "vote against"
           " proposal 7" demoWorld).
  discriminate.
Defined.

(* ================================================================== *)
(** ** Name and description *)

(** The display name and the description each determine the DAO: two agents
    have the same name, or the same description, exactly when they are
    configured with the same DAO name. *)
Theorem name_determines_dao (a b : GovernanceAgent.t) :
  (GovernanceAgent.getName a = GovernanceAgent.getName b
   <-> GovernanceAgent.daoName a = GovernanceAgent.daoName b)
  /\ (GovernanceAgent.getDescription a = GovernanceAgent.getDescription b
      <-> GovernanceAgent.daoName a = GovernanceAgent.daoName b).
Proof.
  unfold GovernanceAgent.getName, GovernanceAgent.getDescription.
  split; split; intros H; try (now rewrite H).
  - now apply append_cancel_r in H.
  - cbn [append] in H. injection H as H. now apply append_cancel_r in H.
Qed.
